(** * fastapi-how-to-log: the routes and exception handlers of [app.py]

    A shallow embedding of [src/app.py].  The file has three layers:

    - the parts of Python, Starlette, FastAPI, pydantic and httpx that
      [app.py] calls, written out as far as the handlers depend on them;
    - an effect monad for handlers: a handler may write log records, issue
      outbound HTTP requests and raise an exception;
    - the seven route handlers and the two exception handlers of [app.py],
      and the request pipeline that ties them together.

    The properties proved at the end are about the third layer. *)

From Stdlib Require Import String Ascii ZArith NArith List Bool Lia.
From Stdlib Require Import Floats.SpecFloat.
Import ListNotations.

Set Warnings "-register-all".
Set Implicit Arguments.

Local Open Scope string_scope.
Local Open Scope Z_scope.

(* ===================================================================== *)
(** ** Python values *)
(* ===================================================================== *)

Module Py.

(** The objects [json.loads] produces, which are also the objects a
    handler may return for FastAPI to serialise.  A [dict] is kept as an
    association list read by [dict_get] (first binding of the key). *)
Inductive value : Type :=
| None_
| Bool (b : bool)
| Int (n : Z)
| Float (f : spec_float)
| Str (s : string)
| List (l : list value)
| Dict (d : list (string * value)).

Fixpoint dict_get (k : string) (d : list (string * value)) : option value :=
  match d with
  | [] => None
  | (k', v) :: d' => if String.eqb k k' then Some v else dict_get k d'
  end.

End Py.

(* ===================================================================== *)
(** ** Starlette responses *)
(* ===================================================================== *)

Module Starlette.

(** What a response carries.  [JSONResponse] renders its content with
    [json.dumps]; the body is kept as the value that is rendered. *)
Inductive Body : Type :=
| Empty
| Text (s : string)
| Json (v : Py.value).

Record Response : Type := mkResponse {
  status_code : Z;
  headers : list (string * string);
  media_type : option string;
  body : Body
}.

Definition header (name : string) (r : Response) : option string :=
  match find (fun kv => String.eqb (fst kv) name) (headers r) with
  | Some kv => Some (snd kv)
  | None => None
  end.

(** [urllib.parse.quote(s, safe)]: a byte is kept when it is a letter, a
    digit, one of [_.-~] or listed in [safe], and written [%XX] otherwise. *)
Definition in_range (lo hi : N) (c : ascii) : bool :=
  (lo <=? N_of_ascii c)%N && (N_of_ascii c <=? hi)%N.

Fixpoint mem_char (c : ascii) (s : string) : bool :=
  match s with
  | EmptyString => false
  | String c' s' => Ascii.eqb c c' || mem_char c s'
  end.

Definition always_safe (c : ascii) : bool :=
  in_range 65 90 c || in_range 97 122 c || in_range 48 57 c
  || mem_char c "_.-~".

Definition hex_digit (n : N) : ascii :=
  if (n <? 10)%N then ascii_of_N (48 + n) else ascii_of_N (55 + n).

Fixpoint quote (safe : string) (s : string) : string :=
  match s with
  | EmptyString => EmptyString
  | String c s' =>
      if always_safe c || mem_char c safe
      then String c (quote safe s')
      else String "%" (String (hex_digit (N_of_ascii c / 16))
                      (String (hex_digit (N_of_ascii c mod 16))
                              (quote safe s')))
  end.

(** [RedirectResponse(url, status_code=307)]: an empty body and a
    [location] header holding the quoted URL.  The second argument is the
    class's [status_code] parameter; [default_redirect_status] is the value
    it takes when the caller passes none. *)
Definition default_redirect_status : Z := 307.

Definition RedirectResponse (url : string) (status : Z) : Response :=
  {| status_code := status;
     headers := [("location", quote ":/%#?=@[]!$&'()*+,;" url)];
     media_type := None;
     body := Empty |}.

(** [PlainTextResponse(content, status_code=200)]. *)
Definition PlainTextResponse (content : string) (status : Z) : Response :=
  {| status_code := status;
     headers := [];
     media_type := Some "text/plain";
     body := Text content |}.

(** [JSONResponse(content, status_code=200, headers=None)]. *)
Definition JSONResponse (content : Py.value) (status : Z)
           (hdrs : list (string * string)) : Response :=
  {| status_code := status;
     headers := hdrs;
     media_type := Some "application/json";
     body := Json content |}.

(** [Response(status_code=..., headers=...)] with no content. *)
Definition EmptyResponse (status : Z) (hdrs : list (string * string))
  : Response :=
  {| status_code := status;
     headers := hdrs;
     media_type := None;
     body := Empty |}.

(** [starlette.exceptions.HTTPException]; FastAPI's [HTTPException] is a
    subclass with the same three attributes. *)
Record HTTPException : Type := mkHTTPException {
  exc_status_code : Z;
  detail : Py.value;
  exc_headers : option (list (string * string))
}.

End Starlette.

(* ===================================================================== *)
(** ** pydantic validation errors *)
(* ===================================================================== *)

Module Pydantic.

Inductive LocItem : Type :=
| Key (s : string)
| Index (n : Z).

(** One entry of [errors()]: the keys [type], [loc], [msg], [input], [ctx]. *)
Record ErrorDetails : Type := mkErrorDetails {
  type_ : string;
  loc : list LocItem;
  msg : string;
  input : Py.value;
  ctx : list (string * Py.value)
}.

(** Why a single value was refused, before it is given a location. *)
Record Failure : Type := mkFailure {
  failure_type : string;
  failure_msg : string;
  failure_ctx : list (string * Py.value)
}.

Definition line_error (f : Failure) (at_ : list LocItem) (v : Py.value)
  : ErrorDetails :=
  {| type_ := failure_type f;
     loc := at_;
     msg := failure_msg f;
     input := v;
     ctx := failure_ctx f |}.

Definition with_outer_location (outer : list LocItem) (e : ErrorDetails)
  : ErrorDetails :=
  {| type_ := type_ e;
     loc := outer ++ loc e;
     msg := msg e;
     input := input e;
     ctx := ctx e |}.

(** The parts of pydantic-core that are used but not written out here:
    the lax conversions of a string and of a float to an [int], and the text
    [str(ValidationError.from_exception_data(title, line_errors))]. *)
Class Core : Type := {
  str_as_int : string -> Failure + Z;
  float_as_int : spec_float -> Failure + Z;
  ValidationError_str : string -> list ErrorDetails -> string
}.

Definition int_type : Failure :=
  mkFailure "int_type" "Input should be a valid integer" [].

Definition missing : Failure :=
  mkFailure "missing" "Field required" [].

Definition model_attributes_type : Failure :=
  mkFailure "model_attributes_type"
    "Input should be a valid dictionary or object to extract fields from" [].

Definition greater_than_equal_10 : Failure :=
  mkFailure "greater_than_equal"
    "Input should be greater than or equal to 10" [("ge", Py.Int 10)].

(** The [int] validator in lax mode (the default): an [int] is taken as it
    is, a [bool] as 0 or 1, a [str] or a [float] through the conversions of
    [Core]; anything else is not an integer. *)
Definition int_validator `{Core} (v : Py.value) : Failure + Z :=
  match v with
  | Py.Int n => inr n
  | Py.Bool b => inr (Z.b2z b)
  | Py.Str s => str_as_int s
  | Py.Float f => float_as_int f
  | _ => inl int_type
  end.

End Pydantic.

(* ===================================================================== *)
(** ** httpx *)
(* ===================================================================== *)

Module Httpx.

Record Response : Type := mkResponse {
  status_code : Z;
  headers : list (string * string);
  content : string
}.

(** The exceptions [httpx.get] may raise. *)
Inductive Error : Type :=
| ConnectTimeout (message : string)
| ConnectError (message : string)
| OtherError (class_name message : string).

Inductive Outcome : Type :=
| Replied (r : Response)
| Failed (e : Error).

(** One call of [httpx.get(url, timeout=...)], the timeout in seconds. *)
Record Call : Type := mkCall {
  call_method : string;
  call_url : string;
  call_timeout : Z
}.

End Httpx.

(* ===================================================================== *)
(** ** Exceptions, log records and the world a handler runs in *)
(* ===================================================================== *)

(** The exception classes that occur in [app.py]. *)
Inductive Exception : Type :=
| RequestValidationError (errors : list Pydantic.ErrorDetails)
| StarletteHTTPException (e : Starlette.HTTPException)
| PlainException (message : string)
| HttpxException (e : Httpx.Error).

Module Logging.

Inductive Level : Type := DEBUG | INFO | WARNING | ERROR | CRITICAL.

(** The first argument of a logging call: a string, or an exception object
    that the logger formats itself. *)
Inductive Message : Type :=
| OfStr (s : string)
| OfException (e : Exception).

(** The [exc_info] argument: absent, [False], or an exception whose
    traceback is attached to the record. *)
Inductive ExcInfo : Type :=
| NotGiven
| False_
| Of (e : Exception).

Definition has_traceback (i : ExcInfo) : bool :=
  match i with
  | Of _ => true
  | _ => false
  end.

Record Record_ : Type := mkRecord {
  level : Level;
  message : Message;
  exc_info : ExcInfo
}.

End Logging.

(** What a handler can observe and change: the records handed to the
    logger, the outbound requests issued, and how the network answers a
    request to a URL with a timeout. *)
Record World : Type := mkWorld {
  log : list Logging.Record_;
  sent : list Httpx.Call;
  network : string -> Z -> Httpx.Outcome
}.

(** The world after one more record went to the logger. *)
Definition logged (r : Logging.Record_) (w : World) : World :=
  {| log := log w ++ [r]; sent := sent w; network := network w |}.

(** The world after one more outbound request was issued. *)
Definition requested (c : Httpx.Call) (w : World) : World :=
  {| log := log w; sent := sent w ++ [c]; network := network w |}.

Inductive Result (A : Type) : Type :=
| Returned (a : A)
| Raised (e : Exception).

Arguments Returned {A} a.
Arguments Raised {A} e.

(** An [async def] body: it runs in a world, leaves a world, and either
    returns or raises. *)
Definition Coroutine (A : Type) : Type := World -> World * Result A.

Definition ret {A : Type} (a : A) : Coroutine A :=
  fun w => (w, Returned a).

Definition raise {A : Type} (e : Exception) : Coroutine A :=
  fun w => (w, Raised e).

Definition bind {A B : Type} (c : Coroutine A) (k : A -> Coroutine B)
  : Coroutine B :=
  fun w =>
    match c w with
    | (w', Returned a) => k a w'
    | (w', Raised e) => (w', Raised e)
    end.

Declare Scope coroutine_scope.
Delimit Scope coroutine_scope with coroutine.

Notation "x <- c ;; k" := (bind c (fun x => k))
  (at level 100, c at next level, right associativity) : coroutine_scope.
Notation "c ;; k" := (bind c (fun _ => k))
  (at level 100, right associativity) : coroutine_scope.

Local Open Scope coroutine_scope.

(** Modelled from the spec: the module [logging_] is not among the sources;
    the spec treats it as an external collaborator providing a [logger]
    with [.info] and [.warning] methods.  A call hands one record to the
    logger. *)
Definition emit (r : Logging.Record_) : Coroutine unit :=
  fun w => (logged r w, Returned tt).

(** Modelled from the spec: [logger.info(msg)] of the absent module
    [logging_]. *)
Definition logger_info (m : Logging.Message) : Coroutine unit :=
  emit (Logging.mkRecord Logging.INFO m Logging.NotGiven).

(** Modelled from the spec: [logger.warning(msg, exc_info=...)] of the absent
    module [logging_]. *)
Definition logger_warning (m : Logging.Message) (i : Logging.ExcInfo)
  : Coroutine unit :=
  emit (Logging.mkRecord Logging.WARNING m i).

(** [httpx.get(url, timeout=t)]: one request goes out; its reply is
    returned, its failure raised. *)
Definition httpx_get (url : string) (timeout : Z)
  : Coroutine Httpx.Response :=
  fun w =>
    let w' := requested (Httpx.mkCall "GET" url timeout) w in
    match network w url timeout with
    | Httpx.Replied r => (w', Returned r)
    | Httpx.Failed e => (w', Raised (HttpxException e))
    end.

(* ===================================================================== *)
(** ** FastAPI: requests, body validation, default rendering *)
(* ===================================================================== *)

Module FastAPI.

Import Starlette.

Inductive Method : Type := GET | POST | PUT | DELETE | PATCH | HEAD | OPTIONS.

(** The body of a request as the framework reads it: nothing, a JSON
    document decoded by [json.loads], or bytes on which [json.loads] raised
    [JSONDecodeError] at [pos] with message [error]. *)
Inductive Payload : Type :=
| NoBody
| JsonBody (v : Py.value)
| BadJson (pos : Z) (error : string).

Record Request : Type := mkRequest {
  method : Method;
  path : string;
  payload : Payload
}.

(** What an endpoint function hands back: a ready [Response], or a value
    that the framework serialises. *)
Inductive Answer : Type :=
| AResponse (r : Response)
| AValue (v : Py.value).

(** A value becomes a [JSONResponse] with the route's default status 200; a
    [Response] is sent as it is. *)
Definition serialize_response (x : Answer) : Response :=
  match x with
  | AResponse r => r
  | AValue v => JSONResponse v 200 []
  end.

Definition json_invalid (pos : Z) (error : string) : Pydantic.ErrorDetails :=
  {| Pydantic.type_ := "json_invalid";
     Pydantic.loc := [Pydantic.Key "body"; Pydantic.Index pos];
     Pydantic.msg := "JSON decode error";
     Pydantic.input := Py.Dict [];
     Pydantic.ctx := [("error", Py.Str error)] |}.

(** A single body parameter of a model type: the decoded body is validated
    as the model, and every error is located under [body].  An undecodable
    body and an absent one (or [null]) are errors of their own. *)
Definition validate_body {T : Type}
           (validate : Py.value -> list Pydantic.ErrorDetails + T)
           (p : Payload) : list Pydantic.ErrorDetails + T :=
  match p with
  | BadJson pos error => inl [json_invalid pos error]
  | NoBody | JsonBody Py.None_ =>
      inl [Pydantic.line_error Pydantic.missing [Pydantic.Key "body"]
                               Py.None_]
  | JsonBody v =>
      match validate v with
      | inl errs =>
          inl (map (Pydantic.with_outer_location [Pydantic.Key "body"]) errs)
      | inr x => inr x
      end
  end.

(** The errors of the body are raised as one [RequestValidationError]
    before the endpoint function is called. *)
Definition body_param {T : Type}
           (validate : Py.value -> list Pydantic.ErrorDetails + T)
           (request : Request) : Coroutine T :=
  match validate_body validate (payload request) with
  | inl errs => raise (RequestValidationError errs)
  | inr x => ret x
  end.

Definition is_body_allowed_for_status_code (status : Z) : bool :=
  negb ((status <? 200) || (status =? 204) || (status =? 205)
        || (status =? 304)).

(** [fastapi.exception_handlers.http_exception_handler]. *)
Definition http_exception_handler (request : Request)
           (exc : Starlette.HTTPException) : Coroutine Response :=
  let hdrs := match exc_headers exc with Some h => h | None => [] end in
  if negb (is_body_allowed_for_status_code (exc_status_code exc))
  then ret (EmptyResponse (exc_status_code exc) hdrs)
  else ret (JSONResponse (Py.Dict [("detail", detail exc)])
                         (exc_status_code exc) hdrs).

(** [fastapi.HTTPException(status_code, detail)], a subclass of Starlette's:
    an instance is handled wherever a [StarletteHTTPException] is. *)
Definition HTTPException (status : Z) (detail : Py.value) : Exception :=
  StarletteHTTPException
    {| exc_status_code := status; detail := detail; exc_headers := None |}.

(** A route: its method, its path and the endpoint function behind it. *)
Definition Route : Type := Method * string * (Request -> Coroutine Answer).

Definition method_name (m : Method) : string :=
  match m with
  | GET => "GET"
  | POST => "POST"
  | PUT => "PUT"
  | DELETE => "DELETE"
  | PATCH => "PATCH"
  | HEAD => "HEAD"
  | OPTIONS => "OPTIONS"
  end.

Definition matches (m : Method) (p : string) (r : Route) : bool :=
  String.eqb (method_name m) (method_name (fst (fst r)))
  && String.eqb p (snd (fst r)).

(** The first route, in registration order, with this method and path. *)
Definition find_route (m : Method) (p : string) (routes : list Route)
  : option (Request -> Coroutine Answer) :=
  match find (matches m p) routes with
  | Some r => Some (snd r)
  | None => None
  end.

(** What leaves the application for one request: the response sent, and the
    exception re-raised to the server when no handler took it. *)
Record Served : Type := mkServed {
  response : Response;
  escaped : option Exception
}.

(** Starlette's [ServerErrorMiddleware] outside debug mode. *)
Definition server_error (e : Exception) : Served :=
  {| response := PlainTextResponse "Internal Server Error" 500;
     escaped := Some e |}.

End FastAPI.

(* ===================================================================== *)
(** ** app.py *)
(* ===================================================================== *)

Import Starlette FastAPI.

Section App.

Context `{Pydantic.Core}.

(** [@app.exception_handler(RequestValidationError)]; [exc] stands for
    [exc.errors()]. *)
Definition validation_exception_handler (request : Request)
           (exc : list Pydantic.ErrorDetails) : Coroutine Response :=
  let error_str := Pydantic.ValidationError_str (path request) exc in
  logger_warning (Logging.OfStr error_str) Logging.False_ ;;
  ret (PlainTextResponse error_str 422).

(** [@app.exception_handler(StarletteHTTPException)]. *)
Definition custom_http_exception_handler (request : Request)
           (exc : Starlette.HTTPException) : Coroutine Response :=
  logger_warning (Logging.OfException (StarletteHTTPException exc))
                 (Logging.Of (StarletteHTTPException exc)) ;;
  http_exception_handler request exc.

(** [@app.get("/")]. *)
Definition redirect_to_docs : Coroutine Answer :=
  ret (AResponse (RedirectResponse "/docs" default_redirect_status)).

(** [@app.get("/clickable-log")]. *)
Definition clickable_log : Coroutine Answer :=
  logger_info
    (Logging.OfStr "This will show with source code location and timing") ;;
  ret (AResponse
         (JSONResponse (Py.Dict [("message", Py.Str "Clickable log!")])
                       200 [])).

(** [@app.get("/error")]. *)
Definition error : Coroutine Answer :=
  raise (PlainException "This is a test error").

(** [class SomeData(BaseModel): a: int = Field(..., ge=10)]. *)
Record SomeData : Type := mkSomeData { a : Z }.

(** The field [a]: required, an [int], at least 10. *)
Definition validate_a (v : Py.value) : Pydantic.Failure + Z :=
  match Pydantic.int_validator v with
  | inl f => inl f
  | inr n => if 10 <=? n then inr n else inl Pydantic.greater_than_equal_10
  end.

(** Validation of a Python object as [SomeData]: it must be a [dict]; the
    key [a] must be present and pass [validate_a]; other keys are ignored. *)
Definition SomeData_validate (v : Py.value)
  : list Pydantic.ErrorDetails + SomeData :=
  match v with
  | Py.Dict d =>
      match Py.dict_get "a" d with
      | None =>
          inl [Pydantic.line_error Pydantic.missing [Pydantic.Key "a"] v]
      | Some x =>
          match validate_a x with
          | inl f => inl [Pydantic.line_error f [Pydantic.Key "a"] x]
          | inr n => inr {| a := n |}
          end
      end
  | _ => inl [Pydantic.line_error Pydantic.model_attributes_type [] v]
  end.

(** [@app.post("/error-validation-error")]. *)
Definition error_validation_error (data : SomeData) : Coroutine Answer :=
  ret (AValue (Py.Bool true)).

(** [@app.get("/error-httpx-timeout")]: the function ends without a
    [return], so it returns [None]. *)
Definition error_httpx : Coroutine Answer :=
  httpx_get "http://12312312" 1 ;;
  ret (AValue Py.None_).

(** [@app.get("/error-httpx-connection-refused")]. *)
Definition error_httpx_connection_refused : Coroutine Answer :=
  httpx_get "http://localhost:11111" 1 ;;
  ret (AValue Py.None_).

(** [@app.get("/error-404")]. *)
Definition error_404 : Coroutine Answer :=
  raise (HTTPException 404 (Py.Str "Not Found")).

(** The routes in the order [app.py] registers them. *)
Definition routes : list Route :=
  [ (GET, "/", fun _ => redirect_to_docs);
    (GET, "/clickable-log", fun _ => clickable_log);
    (GET, "/error", fun _ => error);
    (POST, "/error-validation-error",
      fun request =>
        data <- body_param SomeData_validate request ;;
        error_validation_error data);
    (GET, "/error-httpx-timeout", fun _ => error_httpx);
    (GET, "/error-httpx-connection-refused",
      fun _ => error_httpx_connection_refused);
    (GET, "/error-404", fun _ => error_404) ].

(** The handler registered for the class of an exception, if any. *)
Definition lookup_handler (e : Exception)
  : option (Request -> Coroutine Response) :=
  match e with
  | RequestValidationError errs =>
      Some (fun request => validation_exception_handler request errs)
  | StarletteHTTPException exc =>
      Some (fun request => custom_http_exception_handler request exc)
  | PlainException _ | HttpxException _ => None
  end.

(** One request through the application, for the routes of [app.py]:
    the endpoint runs; what it returns is serialised; what it raises goes to
    the registered handler of its class, and to the server-error response
    when there is none.  [None] when the request is for no route of
    [app.py]. *)
Definition app (request : Request) (w : World) : option (World * Served) :=
  match find_route (method request) (path request) routes with
  | None => None
  | Some endpoint =>
      match endpoint request w with
      | (w1, Returned x) => Some (w1, mkServed (serialize_response x) None)
      | (w1, Raised e) =>
          match lookup_handler e with
          | None => Some (w1, server_error e)
          | Some handler =>
              match handler request w1 with
              | (w2, Returned r) => Some (w2, mkServed r None)
              | (w2, Raised e') => Some (w2, server_error e')
              end
          end
      end
  end.

End App.

(* ===================================================================== *)
(** ** Concrete inputs *)
(* ===================================================================== *)

(** An instance of [Pydantic.Core] to run the application on concrete
    requests: it refuses every string and every float, and renders a
    validation error as a head line followed by the messages.  The theorems
    below hold for every instance. *)
Definition sample_core : Pydantic.Core :=
  {| Pydantic.str_as_int := fun _ =>
       inl (Pydantic.mkFailure "int_parsing"
              "Input should be a valid integer, unable to parse string as an integer"
              []);
     Pydantic.float_as_int := fun _ =>
       inl (Pydantic.mkFailure "int_from_float"
              "Input should be a valid integer, got a number with a fractional part"
              []);
     Pydantic.ValidationError_str := fun title errs =>
       "validation error for " ++ title ++ ": "
       ++ String.concat "; " (map Pydantic.msg errs) |}.

(** A world with nothing logged or sent, where every host refuses the
    connection. *)
Definition quiet_world : World :=
  {| log := [];
     sent := [];
     network := fun _ _ => Httpx.Failed (Httpx.ConnectError "Connection refused") |}.

(** A world with nothing logged or sent, where every request times out. *)
Definition slow_world : World :=
  {| log := [];
     sent := [];
     network := fun _ _ => Httpx.Failed (Httpx.ConnectTimeout "timed out") |}.

(** A world with nothing logged or sent, where every request is answered
    by [r]. *)
Definition answering_world (r : Httpx.Response) : World :=
  {| log := [];
     sent := [];
     network := fun _ _ => Httpx.Replied r |}.

Definition upstream_page : Httpx.Response :=
  {| Httpx.status_code := 201;
     Httpx.headers := [("x-upstream", "yes")];
     Httpx.content := "upstream body" |}.

(** The outbound requests of the two httpx routes. *)
Definition timeout_call : Httpx.Call :=
  Httpx.mkCall "GET" "http://12312312" 1.

Definition refused_call : Httpx.Call :=
  Httpx.mkCall "GET" "http://localhost:11111" 1.

(** The bodies [{"a": 10}] and [{"a": 5}] after [json.loads]. *)
Definition body_a_10 : Py.value := Py.Dict [("a", Py.Int 10)].
Definition body_a_5 : Py.value := Py.Dict [("a", Py.Int 5)].

(** The error [{"a": 5}] is refused with. *)
Definition a_5_error : Pydantic.ErrorDetails :=
  {| Pydantic.type_ := "greater_than_equal";
     Pydantic.loc := [Pydantic.Key "body"; Pydantic.Key "a"];
     Pydantic.msg := "Input should be greater than or equal to 10";
     Pydantic.input := Py.Int 5;
     Pydantic.ctx := [("ge", Py.Int 10)] |}.

(** The warning record of the validation handler and of the HTTP exception
    handler, and the information record of [clickable_log]. *)
Definition validation_warning (text : string) : Logging.Record_ :=
  Logging.mkRecord Logging.WARNING (Logging.OfStr text) Logging.False_.

Definition http_warning (exc : Starlette.HTTPException) : Logging.Record_ :=
  Logging.mkRecord Logging.WARNING
    (Logging.OfException (StarletteHTTPException exc))
    (Logging.Of (StarletteHTTPException exc)).

Definition clickable_info : Logging.Record_ :=
  Logging.mkRecord Logging.INFO
    (Logging.OfStr "This will show with source code location and timing")
    Logging.NotGiven.

(** The exception [error_404] raises. *)
Definition not_found_exc : Starlette.HTTPException :=
  {| exc_status_code := 404;
     detail := Py.Str "Not Found";
     exc_headers := None |}.

(** The runs of the application, route by route: [Serves request w w' out]
    when the request, served in world [w], leaves the world [w'] and the
    outcome [out].  [app_serves] below shows that these are the runs of
    [app], and all of them. *)
Inductive Serves `{Pydantic.Core}
  : Request -> World -> World -> Served -> Prop :=
| ServesRoot (b : Payload) (w : World) :
    Serves (mkRequest GET "/" b) w w
           (mkServed (RedirectResponse "/docs" default_redirect_status) None)
| ServesClickableLog (b : Payload) (w : World) :
    Serves (mkRequest GET "/clickable-log" b) w (logged clickable_info w)
           (mkServed
              (JSONResponse (Py.Dict [("message", Py.Str "Clickable log!")])
                            200 [])
              None)
| ServesError (b : Payload) (w : World) :
    Serves (mkRequest GET "/error" b) w w
           (server_error (PlainException "This is a test error"))
| ServesValid (b : Payload) (w : World) (data : SomeData) :
    validate_body SomeData_validate b = inr data ->
    Serves (mkRequest POST "/error-validation-error" b) w w
           (mkServed (JSONResponse (Py.Bool true) 200 []) None)
| ServesInvalid (b : Payload) (w : World)
                (errs : list Pydantic.ErrorDetails) :
    validate_body SomeData_validate b = inl errs ->
    Serves (mkRequest POST "/error-validation-error" b) w
           (logged
              (validation_warning
                 (Pydantic.ValidationError_str "/error-validation-error" errs))
              w)
           (mkServed
              (PlainTextResponse
                 (Pydantic.ValidationError_str "/error-validation-error" errs)
                 422)
              None)
| ServesTimeoutReplied (b : Payload) (w : World) (r : Httpx.Response) :
    network w "http://12312312" 1 = Httpx.Replied r ->
    Serves (mkRequest GET "/error-httpx-timeout" b) w
           (requested timeout_call w)
           (mkServed (JSONResponse Py.None_ 200 []) None)
| ServesTimeoutFailed (b : Payload) (w : World) (e : Httpx.Error) :
    network w "http://12312312" 1 = Httpx.Failed e ->
    Serves (mkRequest GET "/error-httpx-timeout" b) w
           (requested timeout_call w)
           (server_error (HttpxException e))
| ServesRefusedReplied (b : Payload) (w : World) (r : Httpx.Response) :
    network w "http://localhost:11111" 1 = Httpx.Replied r ->
    Serves (mkRequest GET "/error-httpx-connection-refused" b) w
           (requested refused_call w)
           (mkServed (JSONResponse Py.None_ 200 []) None)
| ServesRefusedFailed (b : Payload) (w : World) (e : Httpx.Error) :
    network w "http://localhost:11111" 1 = Httpx.Failed e ->
    Serves (mkRequest GET "/error-httpx-connection-refused" b) w
           (requested refused_call w)
           (server_error (HttpxException e))
| ServesNotFound (b : Payload) (w : World) :
    Serves (mkRequest GET "/error-404" b) w
           (logged (http_warning not_found_exc) w)
           (mkServed
              (JSONResponse (Py.Dict [("detail", Py.Str "Not Found")]) 404 [])
              None).

(** A world with one record in the log and one request sent already. *)
Definition busy_world : World :=
  logged clickable_info (requested refused_call quiet_world).

(* ===================================================================== *)
(** ** Routing *)
(* ===================================================================== *)

Section Routing.

Context `{Pydantic.Core}.

Lemma route_root :
  find_route GET "/" routes = Some (fun _ => redirect_to_docs).
Proof. reflexivity. Qed.

Lemma route_validation :
  find_route POST "/error-validation-error" routes
  = Some (fun request =>
            data <- body_param SomeData_validate request ;;
            error_validation_error data).
Proof. reflexivity. Qed.

Lemma route_timeout :
  find_route GET "/error-httpx-timeout" routes = Some (fun _ => error_httpx).
Proof. reflexivity. Qed.

Lemma route_refused :
  find_route GET "/error-httpx-connection-refused" routes
  = Some (fun _ => error_httpx_connection_refused).
Proof. reflexivity. Qed.

(** A request for a path that [app.py] does not declare, or with another
    method, is outside the model. *)
Lemma route_unknown :
  find_route GET "/nowhere" routes = None
  /\ find_route POST "/" routes = None.
Proof. split; reflexivity. Qed.

End Routing.

(* ===================================================================== *)
(** ** The model on concrete inputs *)
(* ===================================================================== *)

Example quote_space :
  quote ":/%#?=@[]!$&'()*+,;" "/a b" = "/a%20b".
Proof. reflexivity. Qed.

Example validate_a_10 :
  SomeData_validate (H := sample_core) body_a_10 = inr {| a := 10 |}.
Proof. reflexivity. Qed.

Example validate_a_true :
  SomeData_validate (H := sample_core) (Py.Dict [("a", Py.Bool true)])
  = inl [Pydantic.line_error Pydantic.greater_than_equal_10
           [Pydantic.Key "a"] (Py.Bool true)].
Proof. reflexivity. Qed.

Example validate_extra_key :
  SomeData_validate (H := sample_core)
    (Py.Dict [("b", Py.Str "x"); ("a", Py.Int 12)])
  = inr {| a := 12 |}.
Proof. reflexivity. Qed.

Example validate_no_a :
  validate_body (SomeData_validate (H := sample_core)) (JsonBody (Py.Dict []))
  = inl [Pydantic.line_error Pydantic.missing
           [Pydantic.Key "body"; Pydantic.Key "a"] (Py.Dict [])].
Proof. reflexivity. Qed.

Example validate_list :
  validate_body (SomeData_validate (H := sample_core))
                (JsonBody (Py.List [Py.Int 10]))
  = inl [Pydantic.line_error Pydantic.model_attributes_type
           [Pydantic.Key "body"] (Py.List [Py.Int 10])].
Proof. reflexivity. Qed.

Example validate_no_body :
  validate_body (SomeData_validate (H := sample_core)) NoBody
  = inl [Pydantic.line_error Pydantic.missing [Pydantic.Key "body"] Py.None_].
Proof. reflexivity. Qed.

Example status_204_has_no_body :
  snd (http_exception_handler (mkRequest GET "/x" NoBody)
         (mkHTTPException 204 (Py.Str "No Content") None) quiet_world)
  = Returned (EmptyResponse 204 []).
Proof. reflexivity. Qed.

(* ===================================================================== *)
(** ** GET / *)
(* ===================================================================== *)

(** The quoting of the redirect target leaves [/docs] as it is. *)
Lemma quote_docs : quote ":/%#?=@[]!$&'()*+,;" "/docs" = "/docs".
Proof. reflexivity. Qed.

(** C1, as stated, fails: in a concrete world [redirect_to_docs] returns a
    response whose status code is 307, so no returned response has status
    302 and location [/docs]. *)
Lemma redirect_to_docs_status_is_not_302 :
  (exists r : Response,
      redirect_to_docs quiet_world = (quiet_world, Returned (AResponse r))
      /\ status_code r = 307)
  /\ ~ (exists r : Response,
           redirect_to_docs quiet_world = (quiet_world, Returned (AResponse r))
           /\ status_code r = 302
           /\ header "location" r = Some "/docs").
Proof.
  split.
  - exists (RedirectResponse "/docs" 307). split; reflexivity.
  - intros [r [Hrun [Hstatus _]]].
    unfold redirect_to_docs, ret in Hrun.
    injection Hrun as Hr. subst r.
    discriminate Hstatus.
Qed.

(** C1 (amended): for every GET request to [/], the handler returns a
    redirect response whose status code is 307, the default of
    [RedirectResponse] since [app.py] passes none, and whose location is
    [/docs]; the application sends that response unchanged and logs
    nothing. *)
Theorem redirect_to_docs_307 `{Pydantic.Core} (p : Payload) (w : World) :
  let r := RedirectResponse "/docs" default_redirect_status in
  redirect_to_docs w = (w, Returned (AResponse r))
  /\ app (mkRequest GET "/" p) w = Some (w, mkServed r None)
  /\ status_code r = 307
  /\ header "location" r = Some "/docs"
  /\ body r = Empty.
Proof.
  cbv zeta. repeat split.
Qed.

(* ===================================================================== *)
(** ** POST /error-validation-error *)
(* ===================================================================== *)

Section Validation.

Context `{Pydantic.Core}.

(** An [int] at least 10 under the key [a] makes a valid [SomeData]. *)
Lemma SomeData_validate_int (d : list (string * Py.value)) (n : Z) :
  Py.dict_get "a" d = Some (Py.Int n) ->
  10 <= n ->
  SomeData_validate (Py.Dict d) = inr {| a := n |}.
Proof.
  intros Hget Hge. unfold SomeData_validate. rewrite Hget.
  unfold validate_a. cbn [Pydantic.int_validator].
  destruct (Z.leb_spec 10 n) as [_ | Hlt]; [reflexivity | lia].
Qed.

(** An [int] below 10 under the key [a] is refused as too small. *)
Lemma SomeData_validate_small (d : list (string * Py.value)) (n : Z) :
  Py.dict_get "a" d = Some (Py.Int n) ->
  n < 10 ->
  SomeData_validate (Py.Dict d)
  = inl [Pydantic.line_error Pydantic.greater_than_equal_10
           [Pydantic.Key "a"] (Py.Int n)].
Proof.
  intros Hget Hlt. unfold SomeData_validate. rewrite Hget.
  unfold validate_a. cbn [Pydantic.int_validator].
  destruct (Z.leb_spec 10 n) as [Hge | _]; [lia | reflexivity].
Qed.

(** A refusal always names exactly one error. *)
Lemma SomeData_validate_one_error (v : Py.value)
      (errs : list Pydantic.ErrorDetails) :
  SomeData_validate v = inl errs -> length errs = 1%nat.
Proof.
  unfold SomeData_validate. intros Hv.
  destruct v; try (injection Hv as <-; reflexivity).
  destruct (Py.dict_get "a" d) as [x |].
  - destruct (validate_a x); [injection Hv as <-; reflexivity | discriminate].
  - injection Hv as <-. reflexivity.
Qed.

Lemma validate_body_one_error (p : Payload)
      (errs : list Pydantic.ErrorDetails) :
  validate_body SomeData_validate p = inl errs -> length errs = 1%nat.
Proof.
  unfold validate_body. intros Hp.
  destruct p as [| v | pos e]; try (injection Hp as <-; reflexivity).
  assert (Hv : v = Py.None_ \/
               match SomeData_validate v with
               | inl errs0 =>
                   inl (map (Pydantic.with_outer_location [Pydantic.Key "body"])
                            errs0)
               | inr x => inr x
               end = inl errs).
  { destruct v; auto. }
  destruct Hv as [-> | Hv].
  - injection Hp as <-. reflexivity.
  - destruct (SomeData_validate v) as [errs0 |] eqn:Hval; [| discriminate Hv].
    injection Hv as <-. rewrite length_map.
    exact (SomeData_validate_one_error v Hval).
Qed.

(** The request handler of the route: the body is validated first, and the
    endpoint function runs only on a valid body. *)
Lemma validation_route_runs (p : Payload) (w : World) :
  app (mkRequest POST "/error-validation-error" p) w
  = match validate_body SomeData_validate p with
    | inr data => Some (w, mkServed (JSONResponse (Py.Bool true) 200 []) None)
    | inl errs =>
        let text :=
          Pydantic.ValidationError_str "/error-validation-error" errs in
        Some (logged (validation_warning text) w,
              mkServed (PlainTextResponse text 422) None)
    end.
Proof.
  unfold app. cbn [method path]. rewrite route_validation.
  unfold bind, body_param. cbn [payload].
  destruct (validate_body SomeData_validate p); reflexivity.
Qed.

End Validation.

(** C2: a POST to [/error-validation-error] whose JSON body is an object
    with an integer at least 10 under [a] passes validation, and the
    response is 200 with the JSON body [true]; nothing is logged. *)
Theorem valid_body_gives_200_true `{Pydantic.Core}
        (d : list (string * Py.value)) (n : Z) (w : World) :
  Py.dict_get "a" d = Some (Py.Int n) ->
  10 <= n ->
  validate_body SomeData_validate (JsonBody (Py.Dict d)) = inr {| a := n |}
  /\ error_validation_error {| a := n |} w
     = (w, Returned (AValue (Py.Bool true)))
  /\ app (mkRequest POST "/error-validation-error" (JsonBody (Py.Dict d))) w
     = Some (w, {| response := {| status_code := 200;
                                  headers := [];
                                  media_type := Some "application/json";
                                  body := Json (Py.Bool true) |};
                   escaped := None |}).
Proof.
  intros Hget Hge.
  assert (Hbody : validate_body SomeData_validate (JsonBody (Py.Dict d))
                  = inr {| a := n |}).
  { unfold validate_body. rewrite (SomeData_validate_int d Hget Hge).
    reflexivity. }
  split; [exact Hbody | split; [reflexivity |]].
  rewrite validation_route_runs, Hbody. reflexivity.
Qed.

(** C2 at [{"a": 10}]. *)
Lemma valid_body_gives_200_true_witness :
  Py.dict_get "a" [("a", Py.Int 10)] = Some (Py.Int 10)
  /\ 10 <= 10
  /\ app (H := sample_core)
         (mkRequest POST "/error-validation-error" (JsonBody body_a_10))
         quiet_world
     = Some (quiet_world, mkServed (JSONResponse (Py.Bool true) 200 []) None).
Proof.
  split; [reflexivity | split; [lia |]].
  apply (@valid_body_gives_200_true sample_core
           [("a", Py.Int 10)] 10 quiet_world); [reflexivity | lia].
Defined.

(** C3: a POST to [/error-validation-error] whose body fails validation
    as [SomeData] never reaches the endpoint function: the request handler
    raises [RequestValidationError], the handler registered for that class is
    [validation_exception_handler], and the response is 422, of media type
    [text/plain], its body the text of the validation error (one error
    line); it is the only response.  The body [{"a": 5}] is such a body. *)
Theorem invalid_body_gives_422 `{Pydantic.Core}
        (p : Payload) (errs : list Pydantic.ErrorDetails) (w : World) :
  validate_body SomeData_validate p = inl errs ->
  let request := mkRequest POST "/error-validation-error" p in
  let text := Pydantic.ValidationError_str "/error-validation-error" errs in
  length errs = 1%nat
  /\ body_param SomeData_validate request w
     = (w, Raised (RequestValidationError errs))
  /\ lookup_handler (RequestValidationError errs)
     = Some (fun request => validation_exception_handler request errs)
  /\ app request w
     = Some (logged (validation_warning text) w,
             {| response := {| status_code := 422;
                               headers := [];
                               media_type := Some "text/plain";
                               body := Text text |};
                escaped := None |})
  /\ validate_body SomeData_validate (JsonBody body_a_5) = inl [a_5_error].
Proof.
  intros Hp request text.
  split; [exact (validate_body_one_error p Hp) |].
  split; [unfold body_param; cbn [payload request]; rewrite Hp; reflexivity |].
  split; [reflexivity |].
  split; [| reflexivity].
  unfold request. rewrite validation_route_runs, Hp. reflexivity.
Qed.

(** C3 at [{"a": 5}]. *)
Lemma invalid_body_gives_422_witness :
  validate_body (SomeData_validate (H := sample_core)) (JsonBody body_a_5)
  = inl [a_5_error]
  /\ app (H := sample_core)
         (mkRequest POST "/error-validation-error" (JsonBody body_a_5))
         quiet_world
     = Some (logged
               (validation_warning
                  "validation error for /error-validation-error: Input should be greater than or equal to 10")
               quiet_world,
             mkServed
               (PlainTextResponse
                  "validation error for /error-validation-error: Input should be greater than or equal to 10"
                  422)
               None).
Proof.
  split; [reflexivity |].
  apply (@invalid_body_gives_422 sample_core (JsonBody body_a_5)
           [a_5_error] quiet_world).
  reflexivity.
Defined.

(* ===================================================================== *)
(** ** The two exception handlers *)
(* ===================================================================== *)

(** C4: on every request-validation failure the validation handler hands
    exactly one record to the logger, at warning level and with
    [exc_info=False] (no traceback), and the text of that record is the body
    of the 422 plain-text response it returns. *)
Theorem validation_handler_logs_one_warning `{Pydantic.Core}
        (request : Request) (exc : list Pydantic.ErrorDetails) (w : World) :
  let text := Pydantic.ValidationError_str (path request) exc in
  let record := validation_warning text in
  let answer := PlainTextResponse text 422 in
  validation_exception_handler request exc w
  = (logged record w, Returned answer)
  /\ log (logged record w) = (log w ++ [record])%list
  /\ sent (logged record w) = sent w
  /\ Logging.level record = Logging.WARNING
  /\ Logging.exc_info record = Logging.False_
  /\ Logging.has_traceback (Logging.exc_info record) = false
  /\ Logging.message record = Logging.OfStr text
  /\ body answer = Text text
  /\ status_code answer = 422
  /\ media_type answer = Some "text/plain".
Proof.
  cbv zeta. unfold validation_exception_handler, logger_warning, emit, bind.
  repeat split.
Qed.

(** The default handler of the framework returns a response and touches
    neither the log nor the network. *)
Lemma http_exception_handler_returns (request : Request)
      (exc : Starlette.HTTPException) :
  exists r : Response,
    forall w : World, http_exception_handler request exc w = (w, Returned r).
Proof.
  unfold http_exception_handler.
  destruct (negb (is_body_allowed_for_status_code (exc_status_code exc)));
    eexists; intros w; reflexivity.
Qed.

(** C5: for every [StarletteHTTPException], the handler registered for
    that class is [custom_http_exception_handler]; it hands one record to
    the logger, at warning level, with the exception as message and as
    [exc_info], and then returns the very response that the framework's
    [http_exception_handler] returns for that request and exception. *)
Theorem custom_http_handler_logs_then_delegates `{Pydantic.Core}
        (request : Request) (exc : Starlette.HTTPException) (w : World) :
  let record := http_warning exc in
  lookup_handler (StarletteHTTPException exc)
  = Some (fun request => custom_http_exception_handler request exc)
  /\ custom_http_exception_handler request exc w
     = http_exception_handler request exc (logged record w)
  /\ (exists r : Response,
         http_exception_handler request exc w = (w, Returned r)
         /\ custom_http_exception_handler request exc w
            = (logged record w, Returned r))
  /\ log (logged record w) = (log w ++ [record])%list
  /\ Logging.level record = Logging.WARNING
  /\ Logging.exc_info record = Logging.Of (StarletteHTTPException exc)
  /\ Logging.has_traceback (Logging.exc_info record) = true.
Proof.
  cbv zeta.
  split; [reflexivity |].
  split; [reflexivity |].
  split; [| repeat split].
  destruct (http_exception_handler_returns request exc) as [r Hr].
  exists r. split; [apply Hr |].
  unfold custom_http_exception_handler, logger_warning, emit, bind.
  apply Hr.
Qed.

(* ===================================================================== *)
(** ** GET /error-404, GET /error and GET /clickable-log *)
(* ===================================================================== *)

(** C6: for every GET request to [/error-404] the handler raises an HTTP
    exception with status code 404 and detail [Not Found]; the exception
    goes through [custom_http_exception_handler], which logs one warning,
    and the response is 404 with the JSON body [{"detail": "Not Found"}]. *)
Theorem error_404_gives_404_not_found `{Pydantic.Core}
        (p : Payload) (w : World) :
  let exc := {| exc_status_code := 404;
                detail := Py.Str "Not Found";
                exc_headers := None |} in
  error_404 w = (w, Raised (StarletteHTTPException exc))
  /\ app (mkRequest GET "/error-404" p) w
     = Some (logged (http_warning exc) w,
             {| response :=
                  {| status_code := 404;
                     headers := [];
                     media_type := Some "application/json";
                     body := Json (Py.Dict [("detail", Py.Str "Not Found")]) |};
                escaped := None |}).
Proof.
  cbv zeta. split; reflexivity.
Qed.

(** C7: for every GET request to [/error] the handler raises a plain
    [Exception] and never returns; no exception handler is registered for
    its class, so the response is the server-error response, status 500,
    and the exception is re-raised to the server; nothing is logged by
    [app.py]. *)
Theorem error_gives_500 `{Pydantic.Core} (p : Payload) (w : World) :
  let exc := PlainException "This is a test error" in
  error w = (w, Raised exc)
  /\ (forall (w' : World) (x : Answer), error w <> (w', Returned x))
  /\ lookup_handler exc = None
  /\ app (mkRequest GET "/error" p) w
     = Some (w,
             {| response := {| status_code := 500;
                               headers := [];
                               media_type := Some "text/plain";
                               body := Text "Internal Server Error" |};
                escaped := Some exc |}).
Proof.
  cbv zeta. split; [reflexivity |].
  split; [| split; reflexivity].
  intros w' x Hrun. unfold error, raise in Hrun. discriminate Hrun.
Qed.

(** C8: for every GET request to [/clickable-log] the handler hands one
    record to the logger, at level INFO, and the response is 200 with the
    JSON body [{"message": "Clickable log!"}]. *)
Theorem clickable_log_gives_200 `{Pydantic.Core} (p : Payload) (w : World) :
  let answer := {| status_code := 200;
                   headers := [];
                   media_type := Some "application/json";
                   body := Json (Py.Dict
                                   [("message", Py.Str "Clickable log!")]) |} in
  clickable_log w = (logged clickable_info w, Returned (AResponse answer))
  /\ log (logged clickable_info w) = (log w ++ [clickable_info])%list
  /\ Logging.level clickable_info = Logging.INFO
  /\ app (mkRequest GET "/clickable-log" p) w
     = Some (logged clickable_info w, mkServed answer None).
Proof.
  cbv zeta. repeat split.
Qed.

(* ===================================================================== *)
(** ** GET /error-httpx-timeout and GET /error-httpx-connection-refused *)
(* ===================================================================== *)

(** What a handler made of one [httpx.get] does, by the answer of the
    network. *)
Lemma httpx_get_then_none (url : string) (w : World) :
  (httpx_get url 1 ;; ret (AValue Py.None_)) w
  = (requested (Httpx.mkCall "GET" url 1) w,
     match network w url 1 with
     | Httpx.Replied _ => Returned (AValue Py.None_)
     | Httpx.Failed e => Raised (HttpxException e)
     end).
Proof.
  unfold bind, httpx_get, ret.
  destruct (network w url 1); reflexivity.
Qed.

(** C9: each of the two handlers issues exactly one outbound GET, to
    [http://12312312] and to [http://localhost:11111], with a timeout of
    1 second, and logs nothing; whatever error that call raises (a timeout,
    a refused connection) is what the handler raises, no handler is
    registered for it, and it leaves the application with the server-error
    response. *)
Theorem httpx_routes_send_once_and_propagate `{Pydantic.Core}
        (p : Payload) (w : World) :
  fst (error_httpx w) = requested timeout_call w
  /\ fst (error_httpx_connection_refused w) = requested refused_call w
  /\ sent (requested timeout_call w) = (sent w ++ [timeout_call])%list
  /\ sent (requested refused_call w) = (sent w ++ [refused_call])%list
  /\ Httpx.call_timeout timeout_call = 1
  /\ Httpx.call_timeout refused_call = 1
  /\ log (requested timeout_call w) = log w
  /\ log (requested refused_call w) = log w
  /\ (forall e : Httpx.Error,
         network w "http://12312312" 1 = Httpx.Failed e ->
         error_httpx w = (requested timeout_call w, Raised (HttpxException e))
         /\ app (mkRequest GET "/error-httpx-timeout" p) w
            = Some (requested timeout_call w,
                    server_error (HttpxException e)))
  /\ (forall e : Httpx.Error,
         network w "http://localhost:11111" 1 = Httpx.Failed e ->
         error_httpx_connection_refused w
         = (requested refused_call w, Raised (HttpxException e))
         /\ app (mkRequest GET "/error-httpx-connection-refused" p) w
            = Some (requested refused_call w,
                    server_error (HttpxException e))).
Proof.
  assert (Ht := httpx_get_then_none "http://12312312" w).
  assert (Hr := httpx_get_then_none "http://localhost:11111" w).
  fold error_httpx in Ht. fold error_httpx_connection_refused in Hr.
  split; [rewrite Ht; reflexivity |].
  split; [rewrite Hr; reflexivity |].
  do 6 (split; [reflexivity |]).
  split; intros e He.
  - rewrite He in Ht. split; [exact Ht |].
    unfold app. cbn [method path]. rewrite route_timeout, Ht. reflexivity.
  - rewrite He in Hr. split; [exact Hr |].
    unfold app. cbn [method path]. rewrite route_refused, Hr. reflexivity.
Qed.

(** C9 where every request times out, and where every connection is
    refused. *)
Lemma httpx_routes_send_once_and_propagate_witness :
  error_httpx slow_world
  = (requested timeout_call slow_world,
     Raised (HttpxException (Httpx.ConnectTimeout "timed out")))
  /\ error_httpx_connection_refused quiet_world
     = (requested refused_call quiet_world,
        Raised (HttpxException (Httpx.ConnectError "Connection refused"))).
Proof.
  split.
  - apply (@httpx_routes_send_once_and_propagate sample_core NoBody
             slow_world).
    reflexivity.
  - apply (@httpx_routes_send_once_and_propagate sample_core NoBody
             quiet_world).
    reflexivity.
Defined.

(** C10: when the outbound GET is answered, each of the two handlers
    drops the answer and returns [None]; the response is 200 with the JSON
    body [null], whatever the upstream status, headers and content were. *)
Theorem httpx_routes_discard_upstream_reply `{Pydantic.Core}
        (p : Payload) (w : World) (r1 r2 : Httpx.Response) :
  network w "http://12312312" 1 = Httpx.Replied r1 ->
  network w "http://localhost:11111" 1 = Httpx.Replied r2 ->
  let answer := {| status_code := 200;
                   headers := [];
                   media_type := Some "application/json";
                   body := Json Py.None_ |} in
  error_httpx w = (requested timeout_call w, Returned (AValue Py.None_))
  /\ error_httpx_connection_refused w
     = (requested refused_call w, Returned (AValue Py.None_))
  /\ app (mkRequest GET "/error-httpx-timeout" p) w
     = Some (requested timeout_call w, mkServed answer None)
  /\ app (mkRequest GET "/error-httpx-connection-refused" p) w
     = Some (requested refused_call w, mkServed answer None).
Proof.
  intros H1 H2 answer.
  assert (Ht := httpx_get_then_none "http://12312312" w).
  assert (Hr := httpx_get_then_none "http://localhost:11111" w).
  fold error_httpx in Ht. fold error_httpx_connection_refused in Hr.
  rewrite H1 in Ht. rewrite H2 in Hr.
  split; [exact Ht |]. split; [exact Hr |].
  split.
  - unfold app. cbn [method path]. rewrite route_timeout, Ht. reflexivity.
  - unfold app. cbn [method path]. rewrite route_refused, Hr. reflexivity.
Qed.

(** C10 where every request is answered with a 201 page. *)
Lemma httpx_routes_discard_upstream_reply_witness :
  network (answering_world upstream_page) "http://12312312" 1
  = Httpx.Replied upstream_page
  /\ app (H := sample_core) (mkRequest GET "/error-httpx-timeout" NoBody)
         (answering_world upstream_page)
     = Some (requested timeout_call (answering_world upstream_page),
             mkServed (JSONResponse Py.None_ 200 []) None).
Proof.
  split; [reflexivity |].
  apply (@httpx_routes_discard_upstream_reply sample_core NoBody
           (answering_world upstream_page) upstream_page upstream_page);
    reflexivity.
Defined.

(* ===================================================================== *)
(** ** The application as a whole *)
(* ===================================================================== *)

Section Whole.

Context `{Pydantic.Core}.

(** Every method and path is that of one route of [app.py], or of none. *)
Lemma route_cases (m : Method) (p : string) :
  (m = GET /\ p = "/")
  \/ (m = GET /\ p = "/clickable-log")
  \/ (m = GET /\ p = "/error")
  \/ (m = POST /\ p = "/error-validation-error")
  \/ (m = GET /\ p = "/error-httpx-timeout")
  \/ (m = GET /\ p = "/error-httpx-connection-refused")
  \/ (m = GET /\ p = "/error-404")
  \/ find_route m p routes = None.
Proof.
  destruct m;
    try (do 7 right; unfold find_route, routes, matches; simpl;
         repeat rewrite andb_false_r; reflexivity).
  - destruct (String.eqb_spec p "/") as [-> | N1]; [tauto |].
    destruct (String.eqb_spec p "/clickable-log") as [-> | N2]; [tauto |].
    destruct (String.eqb_spec p "/error") as [-> | N3]; [tauto |].
    destruct (String.eqb_spec p "/error-httpx-timeout") as [-> | N4];
      [tauto |].
    destruct (String.eqb_spec p "/error-httpx-connection-refused")
      as [-> | N5]; [tauto |].
    destruct (String.eqb_spec p "/error-404") as [-> | N6]; [tauto |].
    do 7 right. unfold find_route, routes, matches. simpl.
    apply String.eqb_neq in N1, N2, N3, N4, N5, N6.
    rewrite N1, N2, N3, N4, N5, N6. reflexivity.
  - destruct (String.eqb_spec p "/error-validation-error") as [-> | N1];
      [tauto |].
    do 7 right. unfold find_route, routes, matches. simpl.
    apply String.eqb_neq in N1. rewrite N1. reflexivity.
Qed.

Lemma timeout_route_runs (p : Payload) (w : World) :
  app (mkRequest GET "/error-httpx-timeout" p) w
  = Some (requested timeout_call w,
          match network w "http://12312312" 1 with
          | Httpx.Replied _ => mkServed (JSONResponse Py.None_ 200 []) None
          | Httpx.Failed e => server_error (HttpxException e)
          end).
Proof.
  unfold app. cbn [method path]. rewrite route_timeout.
  assert (Ht := httpx_get_then_none "http://12312312" w).
  fold error_httpx in Ht. rewrite Ht.
  destruct (network w "http://12312312" 1); reflexivity.
Qed.

Lemma refused_route_runs (p : Payload) (w : World) :
  app (mkRequest GET "/error-httpx-connection-refused" p) w
  = Some (requested refused_call w,
          match network w "http://localhost:11111" 1 with
          | Httpx.Replied _ => mkServed (JSONResponse Py.None_ 200 []) None
          | Httpx.Failed e => server_error (HttpxException e)
          end).
Proof.
  unfold app. cbn [method path]. rewrite route_refused.
  assert (Hr := httpx_get_then_none "http://localhost:11111" w).
  fold error_httpx_connection_refused in Hr. rewrite Hr.
  destruct (network w "http://localhost:11111" 1); reflexivity.
Qed.

(** [Serves] holds of exactly the runs of [app]. *)
Lemma app_serves (request : Request) (w w' : World) (out : Served) :
  app request w = Some (w', out) <-> Serves request w w' out.
Proof.
  split.
  - destruct request as [m p b]. intros Happ.
    destruct (route_cases m p)
      as [[-> ->] | [[-> ->] | [[-> ->] | [[-> ->] | [[-> ->]
          | [[-> ->] | [[-> ->] | E]]]]]]].
    + injection Happ as <- <-. constructor.
    + injection Happ as <- <-. constructor.
    + injection Happ as <- <-. constructor.
    + rewrite validation_route_runs in Happ.
      destruct (validate_body SomeData_validate b) as [errs | data] eqn:Hb;
        injection Happ as <- <-.
      * now apply ServesInvalid.
      * now apply ServesValid with (data := data).
    + rewrite timeout_route_runs in Happ.
      destruct (network w "http://12312312" 1) as [r | e] eqn:Hn;
        injection Happ as <- <-.
      * now apply ServesTimeoutReplied with (r := r).
      * now apply ServesTimeoutFailed.
    + rewrite refused_route_runs in Happ.
      destruct (network w "http://localhost:11111" 1) as [r | e] eqn:Hn;
        injection Happ as <- <-.
      * now apply ServesRefusedReplied with (r := r).
      * now apply ServesRefusedFailed.
    + injection Happ as <- <-. constructor.
    + unfold app in Happ. cbn [method path] in Happ. rewrite E in Happ.
      discriminate Happ.
  - intros Hs. destruct Hs as [b w | b w | b w | b w data Hb | b w errs Hb
                               | b w r Hn | b w e Hn | b w r Hn | b w e Hn
                               | b w]; try reflexivity.
    + rewrite validation_route_runs, Hb. reflexivity.
    + rewrite validation_route_runs, Hb. reflexivity.
    + rewrite timeout_route_runs, Hn. reflexivity.
    + rewrite timeout_route_runs, Hn. reflexivity.
    + rewrite refused_route_runs, Hn. reflexivity.
    + rewrite refused_route_runs, Hn. reflexivity.
Qed.

End Whole.

(* ===================================================================== *)
(** ** What the validation route accepts and refuses *)
(* ===================================================================== *)

(** A body is valid only when it is an object whose key [a] holds a value
    that converts to an integer at least 10. *)
Lemma validate_body_valid_inv `{Pydantic.Core}
      (p : Payload) (data : SomeData) :
  validate_body SomeData_validate p = inr data ->
  exists (d : list (string * Py.value)) (x : Py.value),
    p = JsonBody (Py.Dict d)
    /\ Py.dict_get "a" d = Some x
    /\ Pydantic.int_validator x = inr (a data)
    /\ 10 <= a data.
Proof.
  intros Hp. destruct p as [| v | pos e]; try discriminate Hp.
  destruct v; try discriminate Hp.
  exists d. unfold validate_body, SomeData_validate in Hp.
  destruct (Py.dict_get "a" d) as [x |] eqn:Hget; [| discriminate Hp].
  exists x. unfold validate_a in Hp.
  destruct (Pydantic.int_validator x) as [f | n] eqn:Hint;
    [discriminate Hp |].
  destruct (Z.leb_spec 10 n) as [Hge | Hlt]; [| discriminate Hp].
  injection Hp as <-. cbn [a]. auto.
Qed.

(** X1: the validation route answers 200 only to a body that is a JSON
    object whose key [a] holds a value the [int] validator converts to an
    integer at least 10: the endpoint function never sees anything else. *)
Theorem ok_answer_means_valid_body `{Pydantic.Core}
        (p : Payload) (w w' : World) (out : Served) :
  app (mkRequest POST "/error-validation-error" p) w = Some (w', out) ->
  status_code (response out) = 200 ->
  exists (d : list (string * Py.value)) (x : Py.value) (n : Z),
    p = JsonBody (Py.Dict d)
    /\ Py.dict_get "a" d = Some x
    /\ Pydantic.int_validator x = inr n
    /\ 10 <= n.
Proof.
  intros Happ Hstatus. rewrite validation_route_runs in Happ.
  destruct (validate_body SomeData_validate p) as [errs | data] eqn:Hp.
  - injection Happ as <- <-. discriminate Hstatus.
  - destruct (validate_body_valid_inv p Hp) as [d [x [E [Hget [Hint Hge]]]]].
    exists d, x, (a data). auto.
Qed.

Lemma ok_answer_means_valid_body_witness :
  exists (d : list (string * Py.value)) (x : Py.value) (n : Z),
    JsonBody body_a_10 = JsonBody (Py.Dict d)
    /\ Py.dict_get "a" d = Some x
    /\ Pydantic.int_validator (H := sample_core) x = inr n
    /\ 10 <= n.
Proof.
  apply (@ok_answer_means_valid_body sample_core (JsonBody body_a_10)
           quiet_world quiet_world
           (mkServed (JSONResponse (Py.Bool true) 200 []) None));
    reflexivity.
Defined.

(** X2: an integer below 10 under [a] is refused: the response is 422 and
    its text is that of one [greater_than_equal] error, located at
    [body.a], with the integer as input and the bound 10 as context; one
    warning is logged. *)
Theorem small_int_is_refused `{Pydantic.Core}
        (d : list (string * Py.value)) (n : Z) (w : World) :
  Py.dict_get "a" d = Some (Py.Int n) ->
  n < 10 ->
  let err := {| Pydantic.type_ := "greater_than_equal";
                Pydantic.loc := [Pydantic.Key "body"; Pydantic.Key "a"];
                Pydantic.msg := "Input should be greater than or equal to 10";
                Pydantic.input := Py.Int n;
                Pydantic.ctx := [("ge", Py.Int 10)] |} in
  let text := Pydantic.ValidationError_str "/error-validation-error" [err] in
  app (mkRequest POST "/error-validation-error" (JsonBody (Py.Dict d))) w
  = Some (logged (validation_warning text) w,
          mkServed (PlainTextResponse text 422) None).
Proof.
  intros Hget Hlt err text.
  rewrite validation_route_runs. unfold validate_body.
  rewrite (SomeData_validate_small d Hget Hlt). reflexivity.
Qed.

Lemma small_int_is_refused_witness :
  Py.dict_get "a" [("a", Py.Int 9)] = Some (Py.Int 9)
  /\ 9 < 10
  /\ app (H := sample_core)
         (mkRequest POST "/error-validation-error"
                    (JsonBody (Py.Dict [("a", Py.Int 9)])))
         quiet_world
     = Some (logged
               (validation_warning
                  "validation error for /error-validation-error: Input should be greater than or equal to 10")
               quiet_world,
             mkServed
               (PlainTextResponse
                  "validation error for /error-validation-error: Input should be greater than or equal to 10"
                  422)
               None).
Proof.
  split; [reflexivity | split; [lia |]].
  apply (@small_int_is_refused sample_core [("a", Py.Int 9)] 9 quiet_world);
    [reflexivity | lia].
Defined.

(** X3: an object without the key [a] is refused, whatever else it holds:
    the response is 422 and its text is that of one [missing] error located
    at [body.a], with the whole object as input. *)
Theorem missing_key_is_refused `{Pydantic.Core}
        (d : list (string * Py.value)) (w : World) :
  Py.dict_get "a" d = None ->
  let err := {| Pydantic.type_ := "missing";
                Pydantic.loc := [Pydantic.Key "body"; Pydantic.Key "a"];
                Pydantic.msg := "Field required";
                Pydantic.input := Py.Dict d;
                Pydantic.ctx := [] |} in
  let text := Pydantic.ValidationError_str "/error-validation-error" [err] in
  app (mkRequest POST "/error-validation-error" (JsonBody (Py.Dict d))) w
  = Some (logged (validation_warning text) w,
          mkServed (PlainTextResponse text 422) None).
Proof.
  intros Hget err text.
  rewrite validation_route_runs. unfold validate_body, SomeData_validate.
  rewrite Hget. reflexivity.
Qed.

Lemma missing_key_is_refused_witness :
  Py.dict_get "a" [("b", Py.Int 10)] = None
  /\ app (H := sample_core)
         (mkRequest POST "/error-validation-error"
                    (JsonBody (Py.Dict [("b", Py.Int 10)])))
         quiet_world
     = Some (logged
               (validation_warning
                  "validation error for /error-validation-error: Field required")
               quiet_world,
             mkServed
               (PlainTextResponse
                  "validation error for /error-validation-error: Field required"
                  422)
               None).
Proof.
  split; [reflexivity |].
  apply (@missing_key_is_refused sample_core [("b", Py.Int 10)] quiet_world).
  reflexivity.
Defined.


(* ===================================================================== *)
(** ** Properties of every run *)
(* ===================================================================== *)

(** Case analysis on a run of the application. *)
Ltac by_run Happ :=
  apply app_serves in Happ;
  destruct Happ as [b w | b w | b w | b w data Hb | b w errs Hb
                    | b w r Hn | b w e Hn | b w r Hn | b w e Hn | b w].


(** X6: serving a request only appends: the records logged before and the
    requests sent before are kept in order, at most one record or one
    outbound request is added, never both, and the network is left as it
    was. *)
Theorem app_appends_at_most_one_event `{Pydantic.Core}
        (request : Request) (w w' : World) (out : Served) :
  app request w = Some (w', out) ->
  network w' = network w
  /\ exists (records : list Logging.Record_) (calls : list Httpx.Call),
       log w' = (log w ++ records)%list
       /\ sent w' = (sent w ++ calls)%list
       /\ (length records + length calls <= 1)%nat.
Proof.
  intros Happ. by_run Happ; (split; [reflexivity |]);
    first [ exists [], []; cbn [log sent logged requested length];
            rewrite !app_nil_r; repeat split; lia
          | eexists [_], []; cbn [log sent logged requested length];
            rewrite !app_nil_r; repeat split; lia
          | eexists [], [_]; cbn [log sent logged requested length];
            rewrite !app_nil_r; repeat split; lia ].
Qed.

Lemma app_appends_at_most_one_event_witness :
  network (logged clickable_info busy_world) = network busy_world
  /\ exists (records : list Logging.Record_) (calls : list Httpx.Call),
       log (logged clickable_info busy_world)
       = (log busy_world ++ records)%list
       /\ sent (logged clickable_info busy_world)
          = (sent busy_world ++ calls)%list
       /\ (length records + length calls <= 1)%nat.
Proof.
  apply (@app_appends_at_most_one_event sample_core
           (mkRequest GET "/clickable-log" NoBody) busy_world
           (logged clickable_info busy_world)
           (mkServed
              (JSONResponse (Py.Dict [("message", Py.Str "Clickable log!")])
                            200 [])
              None)).
  reflexivity.
Defined.








(** X10: the outcome of a request does not depend on what was logged or
    sent before: two worlds whose networks answer alike give the same
    response and the same escaped exception. *)
Theorem outcome_ignores_history `{Pydantic.Core}
        (request : Request) (w1 w2 : World) :
  (forall (url : string) (t : Z), network w1 url t = network w2 url t) ->
  option_map snd (app request w1) = option_map snd (app request w2).
Proof.
  intros Hnet. destruct request as [m p b].
  destruct (route_cases m p)
    as [[-> ->] | [[-> ->] | [[-> ->] | [[-> ->] | [[-> ->]
        | [[-> ->] | [[-> ->] | E]]]]]]]; try reflexivity.
  - rewrite !validation_route_runs.
    destruct (validate_body SomeData_validate b); reflexivity.
  - rewrite !timeout_route_runs. cbn [option_map snd]. rewrite Hnet.
    reflexivity.
  - rewrite !refused_route_runs. cbn [option_map snd]. rewrite Hnet.
    reflexivity.
  - unfold app. cbn [method path]. rewrite E. reflexivity.
Qed.

Lemma outcome_ignores_history_witness :
  option_map snd
    (app (H := sample_core)
         (mkRequest GET "/error-httpx-connection-refused" NoBody) quiet_world)
  = option_map snd
      (app (H := sample_core)
           (mkRequest GET "/error-httpx-connection-refused" NoBody)
           busy_world).
Proof.
  apply (@outcome_ignores_history sample_core
           (mkRequest GET "/error-httpx-connection-refused" NoBody)
           quiet_world busy_world).
  intros url t. reflexivity.
Defined.

(** X11: only the two httpx routes reach the network: serving
    [/error-httpx-timeout] sends the one request to [http://12312312],
    serving [/error-httpx-connection-refused] the one to
    [http://localhost:11111], each a GET with a timeout of 1 second, and
    serving any other route sends nothing. *)
Theorem only_httpx_routes_send `{Pydantic.Core}
        (request : Request) (w w' : World) (out : Served) :
  app request w = Some (w', out) ->
  sent w'
  = (sent w
     ++ (if String.eqb (path request) "/error-httpx-timeout"
         then [Httpx.mkCall "GET" "http://12312312" 1]
         else if String.eqb (path request) "/error-httpx-connection-refused"
              then [Httpx.mkCall "GET" "http://localhost:11111" 1]
              else []))%list.
Proof.
  intros Happ.
  by_run Happ; cbn [path sent logged requested];
    first [ reflexivity | symmetry; apply app_nil_r ].
Qed.

Lemma only_httpx_routes_send_witness :
  sent (requested timeout_call busy_world)
  = (sent busy_world ++ [Httpx.mkCall "GET" "http://12312312" 1])%list
  /\ sent (logged clickable_info busy_world) = (sent busy_world ++ [])%list.
Proof.
  split.
  - apply (@only_httpx_routes_send sample_core
             (mkRequest GET "/error-httpx-timeout" NoBody) busy_world
             (requested timeout_call busy_world)
             (server_error
                (HttpxException (Httpx.ConnectError "Connection refused")))).
    reflexivity.
  - apply (@only_httpx_routes_send sample_core
             (mkRequest GET "/clickable-log" NoBody) busy_world
             (logged clickable_info busy_world)
             (mkServed
                (JSONResponse
                   (Py.Dict [("message", Py.Str "Clickable log!")]) 200 [])
                None)).
    reflexivity.
Defined.



(** X13: an exception that escapes the application is never a
    request-validation error nor an HTTP exception: it is the test error of
    [/error], or the error the network gave to one of the two httpx routes;
    the response is then the plain-text server-error response. *)
Theorem escaped_exception_origin `{Pydantic.Core}
        (request : Request) (w w' : World) (out : Served) (exc : Exception) :
  app request w = Some (w', out) ->
  escaped out = Some exc ->
  response out = PlainTextResponse "Internal Server Error" 500
  /\ ((path request = "/error"
       /\ exc = PlainException "This is a test error")
      \/ (exists he : Httpx.Error,
             exc = HttpxException he
             /\ ((path request = "/error-httpx-timeout"
                  /\ network w "http://12312312" 1 = Httpx.Failed he)
                 \/ (path request = "/error-httpx-connection-refused"
                     /\ network w "http://localhost:11111" 1
                        = Httpx.Failed he)))).
Proof.
  intros Happ Hesc.
  by_run Happ; cbn [escaped server_error] in Hesc; try discriminate Hesc;
    injection Hesc as <-; (split; [reflexivity |]).
  - left. split; reflexivity.
  - right. eexists. split; [reflexivity |]. left. split; [reflexivity | exact Hn].
  - right. eexists. split; [reflexivity |]. right.
    split; [reflexivity | exact Hn].
Qed.

Lemma escaped_exception_origin_witness :
  response (server_error (HttpxException (Httpx.ConnectTimeout "timed out")))
  = PlainTextResponse "Internal Server Error" 500
  /\ (("/error-httpx-timeout" = "/error"
       /\ HttpxException (Httpx.ConnectTimeout "timed out")
          = PlainException "This is a test error")
      \/ (exists he : Httpx.Error,
             HttpxException (Httpx.ConnectTimeout "timed out")
             = HttpxException he
             /\ (("/error-httpx-timeout" = "/error-httpx-timeout"
                  /\ network slow_world "http://12312312" 1 = Httpx.Failed he)
                 \/ ("/error-httpx-timeout"
                     = "/error-httpx-connection-refused"
                     /\ network slow_world "http://localhost:11111" 1
                        = Httpx.Failed he)))).
Proof.
  apply (@escaped_exception_origin sample_core
           (mkRequest GET "/error-httpx-timeout" NoBody) slow_world
           (requested timeout_call slow_world)
           (server_error (HttpxException (Httpx.ConnectTimeout "timed out")))
           (HttpxException (Httpx.ConnectTimeout "timed out")));
    reflexivity.
Defined.
